(** * poolcli refund commands: a shallow embedding and its properties

    The development follows [poolcli/core/refund_manager.py] (the class
    [RefundManager]) and [poolcli/cli/refund.py] (the click commands
    [start], [list] and [get]).

    Modelling conventions.
    - Python values that travel through the code (JSON bodies, tokens,
      prompt results) are elements of [pyval]; numbers are integers.
    - A Python [str] is a [string]; its characters are the code points of
      the data the code slices or uppercases (ISO timestamps, status
      words), which are ASCII.  Literals of the source are kept as they
      are written there.
    - An exception is its class and the text of [str(e)].
    - A computation is the pair of the calls and console lines it issued,
      in order, and of its outcome (a value or a raised exception).
    - The collaborators that are not in these two files (the key manager,
      the API client, the auth service, the terminal prompt, the system
      clock) are the fields of the class [World]; the pieces of the Python
      library and the route constants are the fields of [Platform]. *)

From Stdlib Require Import ZArith String Ascii List Lia DecimalString.
From stdpp Require Import base option list gmap strings.

Set Warnings "-register-all".

Local Open Scope string_scope.
Local Open Scope Z_scope.

(** ** Values *)

Inductive pyval :=
| VNone
| VBool (b : bool)
| VInt (z : Z)
| VStr (s : string)
| VList (l : list pyval)
| VDict (d : gmap string pyval).

(** [type(v).__name__] *)
Definition type_name (v : pyval) : string :=
  match v with
  | VNone => "NoneType"
  | VBool _ => "bool"
  | VInt _ => "int"
  | VStr _ => "str"
  | VList _ => "list"
  | VDict _ => "dict"
  end.

(** Truth value of an object, as [if x] and [not x] test it. *)
Definition truthy (v : pyval) : bool :=
  match v with
  | VNone => false
  | VBool b => b
  | VInt z => negb (z =? 0)
  | VStr s => negb (Nat.eqb (String.length s) 0)
  | VList l => negb (Nat.eqb (length l) 0)
  | VDict d => negb (Nat.eqb (size d) 0)
  end.

(** ** Exceptions and outcomes *)

Inductive exn_class :=
| ValueError
| TypeError
| AttributeError
| KeyError
| IndexError
| OverflowError
| RequestException       (* requests.RequestException and its subclasses *)
| AuthenticationError    (* poolcli.exceptions *)
| APIError               (* poolcli.exceptions *)
| RefundError            (* poolcli.exceptions *)
| OtherException.        (* any other subclass of Exception *)

Record exn := Exn { exn_cls : exn_class; exn_msg : string }.

Inductive outcome (A : Type) :=
| Ret (a : A)
| Raise (e : exn).
Arguments Ret {A} a.
Arguments Raise {A} e.

#[global] Instance outcome_ret : MRet outcome := λ A a, Ret a.
#[global] Instance outcome_bind : MBind outcome := λ A B f m,
  match m with
  | Ret a => f a
  | Raise e => Raise e
  end.

(** [try: body except <classes handled by h>: h e]; [h e = None] when no
    clause matches [e], which then propagates. *)
Definition try_pure {A} (body : outcome A) (h : exn → option (outcome A)) : outcome A :=
  match body with
  | Ret a => Ret a
  | Raise e => match h e with Some r => r | None => Raise e end
  end.

(** ** Strings *)

Definition quoted (s : string) : string := "'" +:+ s +:+ "'".

(** [s.replace(c, new)] for a one-character [c]. *)
Fixpoint str_replace_char (c : ascii) (new : string) (s : string) : string :=
  match s with
  | EmptyString => EmptyString
  | String a rest =>
      if Ascii.eqb a c then new +:+ str_replace_char c new rest
      else String a (str_replace_char c new rest)
  end.

(** [s[:n]] *)
Fixpoint str_take (n : nat) (s : string) : string :=
  match n, s with
  | O, _ => EmptyString
  | S _, EmptyString => EmptyString
  | S n', String a rest => String a (str_take n' rest)
  end.

Definition ascii_upper (a : ascii) : ascii :=
  let n := nat_of_ascii a in
  if ((97 <=? n) && (n <=? 122))%nat then ascii_of_nat (n - 32) else a.

(** [s.upper()] *)
Fixpoint str_upper (s : string) : string :=
  match s with
  | EmptyString => EmptyString
  | String a rest => String (ascii_upper a) (str_upper rest)
  end.

Fixpoint spaces (n : nat) : string :=
  match n with
  | O => EmptyString
  | S n' => String " " (spaces n')
  end.

(** [f"{s:<w}"]: left-justified in a field of width [w]. *)
Definition ljust (w : nat) (s : string) : string :=
  s +:+ spaces (w - String.length s).

(** [str(z)] for an [int]. *)
Definition str_of_Z (z : Z) : string := NilZero.string_of_int (Z.to_int z).

(** ** Operations on values, with the exceptions Python raises *)

Definition attribute_error {A} (v : pyval) (attr : string) : outcome A :=
  Raise (Exn AttributeError
           (quoted (type_name v) +:+ " object has no attribute " +:+ quoted attr)).

Definition not_subscriptable {A} (v : pyval) : outcome A :=
  Raise (Exn TypeError (quoted (type_name v) +:+ " object is not subscriptable")).

(** [v.get(k, dflt)]: only a dict has the method. *)
Definition py_get (v : pyval) (k : string) (dflt : pyval) : outcome pyval :=
  match v with
  | VDict d => Ret (default dflt (d !! k))
  | _ => attribute_error v "get"
  end.

(** [v[k]] for a string key [k]. *)
Definition py_getitem (v : pyval) (k : string) : outcome pyval :=
  match v with
  | VDict d =>
      match d !! k with
      | Some x => Ret x
      | None => Raise (Exn KeyError (quoted k))
      end
  | VList _ => Raise (Exn TypeError "list indices must be integers or slices, not str")
  | VStr _ => Raise (Exn TypeError "string indices must be integers, not 'str'")
  | _ => not_subscriptable v
  end.

(** [len(v)] *)
Definition py_len (v : pyval) : outcome nat :=
  match v with
  | VStr s => Ret (String.length s)
  | VList l => Ret (length l)
  | VDict d => Ret (size d)
  | _ => Raise (Exn TypeError ("object of type " +:+ quoted (type_name v) +:+ " has no len()"))
  end.

Fixpoint chars (s : string) : list pyval :=
  match s with
  | EmptyString => []
  | String a rest => VStr (String a EmptyString) :: chars rest
  end.

(** The elements [for x in v] runs through.  A dict yields its keys. *)
Definition py_iter (v : pyval) : outcome (list pyval) :=
  match v with
  | VList l => Ret l
  | VStr s => Ret (chars s)
  | VDict d => Ret (VStr <$> (map_to_list d).*1)
  | _ => Raise (Exn TypeError (quoted (type_name v) +:+ " object is not iterable"))
  end.

(** [l[i]] on a list: negative indices count from the end. *)
Definition list_index (l : list pyval) (i : Z) : outcome pyval :=
  let n := Z.of_nat (length l) in
  let j := if i <? 0 then i + n else i in
  if (0 <=? j) && (j <? n) then
    match l !! Z.to_nat j with
    | Some x => Ret x
    | None => Raise (Exn IndexError "list index out of range")
    end
  else Raise (Exn IndexError "list index out of range").

Definition list_getitem (l : list pyval) (i : pyval) : outcome pyval :=
  match i with
  | VInt z => list_index l z
  | VBool b => list_index l (if b then 1 else 0)
  | _ => Raise (Exn TypeError
                  ("list indices must be integers or slices, not " +:+ type_name i))
  end.

(** [v.upper()] *)
Definition py_upper (v : pyval) : outcome pyval :=
  match v with
  | VStr s => Ret (VStr (str_upper s))
  | _ => attribute_error v "upper"
  end.

(** [v[:n]]; on a dict CPython up to 3.11 raises the [TypeError] below and
    later versions a [KeyError]: no handler of this program tells them
    apart. *)
Definition py_slice_to (n : nat) (v : pyval) : outcome pyval :=
  match v with
  | VStr s => Ret (VStr (str_take n s))
  | VList l => Ret (VList (take n l))
  | VDict _ => Raise (Exn TypeError "unhashable type: 'slice'")
  | _ => not_subscriptable v
  end.

(** [v.replace(c, new)] *)
Definition py_replace (v : pyval) (c : ascii) (new : string) : outcome string :=
  match v with
  | VStr s => Ret (str_replace_char c new s)
  | _ => attribute_error v "replace"
  end.

(** ** Dates and times

    A [datetime] is its wall-clock reading, in microseconds since
    0001-01-01T00:00:00, and its [tzinfo]; [fromisoformat] only builds
    fixed-offset zones, whose offset lies strictly between -24h and 24h. *)

Definition usec_per_day : Z := 86400000000.

(** [datetime.max] is the last microsecond of day 3652059 (9999-12-31). *)
Definition max_usec : Z := 3652059 * usec_per_day.

Definition offset_ok (off : Z) : bool :=
  (- usec_per_day <? off) && (off <? usec_per_day).

Record timezone := Timezone {
  utcoffset : Z;
  utcoffset_range : Is_true (offset_ok utcoffset)
}.

Record datetime := Datetime {
  wall : Z;
  tzinfo : option timezone
}.

(** The reading of the system clock: the UTC instant and the local
    wall-clock time, both in microseconds since 0001-01-01T00:00:00. *)
Record clock := Clock {
  utc_now : Z;
  local_now : Z
}.

Definition in_range (w : Z) : bool := (0 <=? w) && (w <? max_usec).

Definition checked_datetime (w : Z) (tz : option timezone) : outcome datetime :=
  if in_range w then Ret (Datetime w tz)
  else Raise (Exn OverflowError "date value out of range").

(** [datetime.now(tz)] *)
Definition datetime_now (c : clock) (tz : option timezone) : outcome datetime :=
  match tz with
  | None => checked_datetime (local_now c) None
  | Some z => checked_datetime (utc_now c + utcoffset z) tz
  end.

(** [d - timedelta(days=n)] *)
Definition datetime_minus_days (d : datetime) (n : Z) : outcome datetime :=
  checked_datetime (wall d - n * usec_per_day) (tzinfo d).

(** The instant an aware datetime denotes. *)
Definition utc_instant (d : datetime) (z : timezone) : Z := wall d - utcoffset z.

(** [a < b] *)
Definition datetime_lt (a b : datetime) : outcome bool :=
  match tzinfo a, tzinfo b with
  | None, None => Ret (wall a <? wall b)
  | Some za, Some zb => Ret (utc_instant a za <? utc_instant b zb)
  | _, _ => Raise (Exn TypeError "can't compare offset-naive and offset-aware datetimes")
  end.

(** ** Calls, console lines and computations *)

(** The keyword arguments of [APIClient.create_request]; [None] stands for
    an argument the caller leaves to the client's default. *)
Record request := Request {
  path : string;
  method : option string;
  json_data : option pyval;
  params : option pyval;
  req_token : pyval
}.

(** A [rich] table as the code fills it: the column titles and, per row,
    the cells handed to [add_row]. *)
Record table := Table {
  columns : list string;
  rows : list (list pyval)
}.

Inductive event :=
| EHeader (s : string)                                  (* Console.header *)
| EError (s : string)                                   (* Console.error *)
| EWarning (s : string)                                 (* Console.warning *)
| ESuccess (s : string)                                 (* Console.success *)
| EInfo (s : string)                                    (* Console.info *)
| EPrintTable (title : string) (lines : list string)    (* Console.print_table *)
| EPrint (t : table)                                    (* Console.print *)
| EAuthenticate (backend_url wallet_name : string) (requires_unlock : bool)
| EListDeveloperKeys (backend_url : string) (token : pyval) (page limit : Z)
                     (status : string)
| ECreateRequest (backend_url : string) (r : request)
| EChoice (message : string) (options : list (pyval * pyval)) (dflt : string).

Record M (A : Type) := Run {
  trace : list event;
  result : outcome A
}.
Arguments Run {A} trace result.
Arguments trace {A} m.
Arguments result {A} m.

#[global] Instance M_ret : MRet M := λ A a, Run [] (Ret a).
#[global] Instance M_bind : MBind M := λ A B f m,
  match result m with
  | Ret a => Run (trace m ++ trace (f a)) (result (f a))
  | Raise e => Run (trace m) (Raise e)
  end.

(** A step without console output or call. *)
Definition lift {A} (o : outcome A) : M A := Run [] o.

(** A call to a collaborator, recorded, with the outcome it had. *)
Definition call {A} (ev : event) (o : outcome A) : M A := Run [ev] o.

Definition emit (ev : event) : M unit := Run [ev] (Ret tt).

Definition raise {A} (c : exn_class) (msg : string) : M A :=
  Run [] (Raise (Exn c msg)).

(** [try: body / except ...]: the handler runs after what [body] did. *)
Definition try_except {A} (body : M A) (h : exn → option (M A)) : M A :=
  match result body with
  | Ret _ => body
  | Raise e =>
      match h e with
      | Some m => Run (trace body ++ trace m) (result m)
      | None => body
      end
  end.

(** [[x for x in l if p(x)]] *)
Fixpoint filter_comprehension {A} (p : A → outcome bool) (l : list A)
  : outcome (list A) :=
  match l with
  | [] => Ret []
  | x :: rest =>
      b ← p x;
      kept ← filter_comprehension p rest;
      Ret (if b : bool then x :: kept else kept)
  end.

(** [[f(x) for x in l]] *)
Fixpoint map_comprehension {A B} (f : A → outcome B) (l : list A)
  : outcome (list B) :=
  match l with
  | [] => Ret []
  | x :: rest =>
      y ← f x;
      ys ← map_comprehension f rest;
      Ret (y :: ys)
  end.

(** [enumerate(l)], counting from [i]. *)
Fixpoint enumerate_from {A} (i : Z) (l : list A) : list (Z * A) :=
  match l with
  | [] => []
  | x :: rest => (i, x) :: enumerate_from (i + 1) rest
  end.

Definition enumerate {A} (l : list A) : list (Z * A) := enumerate_from 0 l.

(** ** What the two files take from outside *)

(** The Python library and [poolcli.core.constants]. *)
Class Platform := {
  (** [datetime.fromisoformat] on a [str]: the datetime, or [None] where
      it raises [ValueError]. *)
  fromisoformat : string → option datetime;
  (** [str(v)] for a list or a dict. *)
  container_repr : pyval → string;
  (** [apiRoutes.refund] *)
  CREATE_REFUND_INVOICE : string;
  LIST_REFUND_INVOICES : string;
  GET_REFUND_DETAILS : string
}.

(** The collaborators during one run of a command: what each call
    answers, and what the clock reads. *)
Class World := {
  (** [AuthService(backend_url).authenticate_with_wallet(wallet_name,
      requires_unlock=...)]: a pair whose first component is the token. *)
  authenticate_with_wallet : string → string → bool → outcome (pyval * pyval);
  (** [KeyManager(backend_url).list_developer_keys(token, page=, limit=,
      status=)] *)
  list_developer_keys : string → pyval → Z → Z → string → outcome pyval;
  (** [APIClient(backend_url).create_request(...)] *)
  create_request : string → request → outcome pyval;
  (** [prompt_toolkit.shortcuts.choice(message=, options=, default=)]: the
      value of the option the user picks. *)
  choice : string → list (pyval * pyval) → string → outcome pyval;
  (** [datetime.now]: one reading serves the whole run. *)
  system_clock : clock
}.

(** [str(v)], which is also what [f"{v}"] inserts. *)
Definition py_str `{Platform} (v : pyval) : string :=
  match v with
  | VNone => "None"
  | VBool true => "True"
  | VBool false => "False"
  | VInt z => str_of_Z z
  | VStr s => s
  | VList _ | VDict _ => container_repr v
  end.

(** [Console], the static methods used here. *)
Module Console.
Definition header (s : string) : M unit := emit (EHeader s).
Definition error (s : string) : M unit := emit (EError s).
Definition warning (s : string) : M unit := emit (EWarning s).
Definition success (s : string) : M unit := emit (ESuccess s).
Definition info (s : string) : M unit := emit (EInfo s).
Definition print_table (title : string) (lines : list string) : M unit :=
  emit (EPrintTable title lines).
Definition print (t : table) : M unit := emit (EPrint t).
End Console.

(** ** [poolcli/core/refund_manager.py]

    A [RefundManager] is its [backend_url]; its [api_client] is the
    [create_request] of the world at that URL. *)

Module RefundManager.
Section RefundManager.
Context `{Platform} `{World}.

Definition datetime_fromisoformat (s : string) : outcome datetime :=
  match fromisoformat s with
  | Some d => Ret d
  | None => Raise (Exn ValueError ("Invalid isoformat string: " +:+ quoted s))
  end.

(** The body of the [try] of [_is_older_than_one_month], at the clock
    reading [c]. *)
Definition older_than_one_month_body (c : clock) (updated_at : pyval)
  : outcome bool :=
  s ← py_replace updated_at "Z"%char "+00:00";
  updated_date ← datetime_fromisoformat s;
  now ← datetime_now c (tzinfo updated_date);
  one_month_ago ← datetime_minus_days now 30;
  datetime_lt updated_date one_month_ago.

Definition _is_older_than_one_month (c : clock) (updated_at : pyval)
  : outcome bool :=
  try_pure (older_than_one_month_body c updated_at)
    (λ e, match exn_cls e with
          | ValueError | TypeError => Some (Ret false)
          | _ => None
          end).

(** [[key for key in expired_keys
      if self._is_older_than_one_month(key.get("updatedAt", ""))]] *)
Definition eligible_keys_of (c : clock) (expired_keys : list pyval)
  : outcome (list pyval) :=
  filter_comprehension
    (λ key, updated_at ← py_get key "updatedAt" (VStr "");
            _is_older_than_one_month c updated_at)
    expired_keys.

(** [[(i, key["apiKey"]) for i, key in enumerate(eligible_keys)]] *)
Definition options_of (eligible_keys : list pyval)
  : outcome (list (pyval * pyval)) :=
  map_comprehension
    (λ '(i, key), api_key ← py_getitem key "apiKey"; Ret (VInt i, api_key))
    (enumerate eligible_keys).

Definition create_request_event (backend_url : string) (r : request) : M pyval :=
  call (ECreateRequest backend_url r) (create_request backend_url r).

Definition create_refund_invoice (backend_url : string) (token : pyval)
  : M pyval :=
  try_except
    (keys_result ← call (EListDeveloperKeys backend_url token 1 100 "expired")
                        (list_developer_keys backend_url token 1 100 "expired");
     expired_keys ← lift (py_getitem keys_result "keys");
     n ← lift (py_len expired_keys);
     if Nat.eqb n 0 then mret VNone
     else
       items ← lift (py_iter expired_keys);
       eligible_keys ← lift (eligible_keys_of system_clock items);
       if Nat.eqb (length eligible_keys) 0 then
         Console.warning "No expired keys older than 1 month found.";;
         mret VNone
       else
         Console.header "Expired Developer Keys - Available for Refund";;
         options ← lift (options_of eligible_keys);
         result ← call (EChoice "Please choose a developer key:" options "salad")
                       (choice "Please choose a developer key:" options "salad");
         selected_key ← lift (list_getitem eligible_keys result);
         key_id ← lift (py_getitem selected_key "keyId");
         let payload := VDict {[ "keyId" := key_id ]} in
         response ← create_request_event backend_url
                      (Request CREATE_REFUND_INVOICE (Some "POST") (Some payload)
                               None token);
         Console.success "✅ Refund Invoice created successfully!";;
         lift (py_getitem response "data"))
    (λ e, match exn_cls e with
          | RequestException =>
              Some (raise APIError ("Request failed: " +:+ exn_msg e))
          | _ =>
              Some (raise RefundError
                      ("Error creating refund invoice: " +:+ exn_msg e +:+
                       ". Check if you have already created invoice for this key."))
          end).

Definition list_refund_invoices (backend_url : string) (token : pyval)
    (page limit : pyval) : M pyval :=
  try_except
    (let params := VDict (<["page" := page]> (<["limit" := limit]> ∅)) in
     response ← create_request_event backend_url
                  (Request LIST_REFUND_INVOICES None None (Some params) token);
     data ← lift (py_getitem response "data");
     refunds ← lift (py_get data "data" (VList []));
     data' ← lift (py_getitem response "data");
     pagination ← lift (py_get data' "pagination" (VDict ∅));
     mret (VDict (<["refunds" := refunds]> (<["pagination" := pagination]> ∅))))
    (λ e, match exn_cls e with
          | RequestException =>
              Some (raise APIError ("API request failed: " +:+ exn_msg e))
          | _ => Some (raise RefundError ("Error listing refunds: " +:+ exn_msg e))
          end).

Definition get_refund_details (backend_url : string) (token : pyval)
    (refund_id : string) : M pyval :=
  try_except
    (response ← create_request_event backend_url
                  (Request (GET_REFUND_DETAILS +:+ "/" +:+ refund_id) None None
                           None token);
     lift (py_get response "data" (VDict ∅)))
    (λ e, Some (raise RefundError
                  ("Error fetching refund details: " +:+ exn_msg e))).

Definition refund_columns : list string :=
  ["Refund ID"; "Amount"; "Status"; "Created"].

(** The arguments of one [table.add_row], evaluated left to right. *)
Definition refund_row (refund : pyval) : outcome (list pyval) :=
  refund_id ← py_get refund "refundId" (VStr "N/A");
  amount ← py_get refund "amountDue" (VInt 5);
  status ← py_get refund "status" (VStr "unknown");
  status_upper ← py_upper status;
  created_at ← py_get refund "createdAt" (VStr "N/A");
  created ← py_slice_to 19 created_at;
  Ret [refund_id; VStr (py_str amount); status_upper; created].

Definition display_refund_list (refunds pagination : pyval) : M unit :=
  if negb (truthy refunds) then
    Console.warning "No refund invoices found."
  else
    items ← lift (py_iter refunds);
    table_rows ← lift (map_comprehension refund_row items);
    Console.print (Table refund_columns table_rows);;
    page ← lift (py_get pagination "page" (VInt 1));
    total ← lift (py_get pagination "totalPages" (VInt 1));
    Console.info ("Page " +:+ py_str page +:+ " of " +:+ py_str total).

End RefundManager.
End RefundManager.

(** ** [poolcli/cli/refund.py]

    A command is a function of its parsed options; click's prompting for a
    missing option happens before the function runs. *)

Module refund.
Section refund.
Context `{Platform} `{World}.

(** [AuthService(backend_url).authenticate_with_wallet(wallet_name,
    requires_unlock=False)] *)
Definition authenticate (backend_url wallet_name : string)
  : M (pyval * pyval) :=
  call (EAuthenticate backend_url wallet_name false)
       (authenticate_with_wallet backend_url wallet_name false).

(** The two [except] clauses that close each command. *)
Definition command_boundary (e : exn) : option (M unit) :=
  match exn_cls e with
  | AuthenticationError | APIError | RefundError =>
      Some (Console.error (exn_msg e))
  | _ => Some (Console.error ("Unexpected error: " +:+ exn_msg e))
  end.

Definition start (wallet_name backend_url : string) : M unit :=
  Console.header "💸 Creating refund invoice for developer key";;
  try_except
    ('(token, _) ← authenticate backend_url wallet_name;
     if negb (truthy token) then Console.error "Authentication required."
     else
       refund_response ← RefundManager.create_refund_invoice backend_url token;
       refund_invoice ← lift (py_get refund_response "invoice" (VDict ∅));
       amount ← lift (py_get refund_invoice "amountDue" (VInt 5));
       if truthy refund_response then
         Console.success "✅ Refund invoice created successfully!";;
         refund_id ← lift (py_get refund_response "refundId" (VStr "N/A"));
         status ← lift (py_get refund_response "status" (VStr "unknown"));
         status_upper ← lift (py_upper status);
         Console.print_table "Refund Invoice Details"
           [ "ID: " +:+ py_str refund_id;
             "Amount: " +:+ py_str amount +:+ " TAO";
             "Status: " +:+ py_str status_upper ]
       else
         Console.warning
           "No refund invoice returned. See if your developer key is expired or not.")
    command_boundary.

Definition get (refund_id wallet_name backend_url : string) : M unit :=
  Console.header ("🔍 Fetching refund details: " +:+ refund_id);;
  try_except
    ('(token, _) ← authenticate backend_url wallet_name;
     if negb (truthy token) then Console.error "Authentication required."
     else
       refund_details ← RefundManager.get_refund_details backend_url token refund_id;
       invoice ← lift (py_get refund_details "invoice" (VDict ∅));
       status ← lift (py_get refund_details "status" (VStr "unknown"));
       status_upper ← lift (py_upper status);
       amount ← lift (py_get invoice "amountDue" (VInt 0));
       created ← lift (py_get invoice "createdAt" (VStr "N/A"));
       updated ← lift (py_get invoice "updatedAt" (VStr "N/A"));
       Console.print_table ("Refund " +:+ refund_id)
         [ ljust 20 "Status:" +:+ " " +:+ py_str status_upper;
           ljust 20 "Amount:" +:+ " " +:+ py_str amount +:+ " TAO";
           ljust 20 "Created:" +:+ " " +:+ py_str created;
           ljust 20 "Updated:" +:+ " " +:+ py_str updated ])
    command_boundary.

Definition list (wallet_name backend_url : string) (page limit : Z) : M unit :=
  Console.header ("📜 Listing refunds for wallet '" +:+ wallet_name +:+ "'");;
  try_except
    ('(token, _) ← authenticate backend_url wallet_name;
     if negb (truthy token) then Console.error "Authentication required."
     else
       result ← RefundManager.list_refund_invoices backend_url token
                  (VInt page) (VInt limit);
       refunds ← lift (py_getitem result "refunds");
       pagination ← lift (py_getitem result "pagination");
       RefundManager.display_refund_list refunds pagination)
    command_boundary.

End refund.
End refund.

(** ** A reference parser and canned worlds, for running the model

    [iso_profile] reads the fixed-width profile
    [YYYY-MM-DDTHH:MM:SS] with an optional [+HH:MM] or [-HH:MM] suffix,
    the shape of the backend's timestamps once [Z] is rewritten; it is one
    possible [fromisoformat], used to evaluate the model on concrete
    inputs.  The properties below hold for every [Platform]. *)

Definition digit_of (a : ascii) : option Z :=
  let n := nat_of_ascii a in
  if ((48 <=? n) && (n <=? 57))%nat then Some (Z.of_nat (n - 48)) else None.

Fixpoint number_from (acc : Z) (s : string) : option Z :=
  match s with
  | EmptyString => Some acc
  | String a rest =>
      match digit_of a with
      | Some d => number_from (10 * acc + d) rest
      | None => None
      end
  end.

(** A run of [n] digits starting at position [i]. *)
Definition field (i n : nat) (s : string) : option Z :=
  let f := String.substring i n s in
  if Nat.eqb (String.length f) n then number_from 0 f else None.

Definition is_leap (y : Z) : bool :=
  (y mod 4 =? 0) && (negb (y mod 100 =? 0) || (y mod 400 =? 0)).

Definition days_in_month (y m : Z) : Z :=
  if m =? 2 then (if is_leap y then 29 else 28)
  else if (m =? 4) || (m =? 6) || (m =? 9) || (m =? 11) then 30
  else 31.

Definition days_before_year (y : Z) : Z :=
  let p := y - 1 in p * 365 + p / 4 - p / 100 + p / 400.

Fixpoint days_before_month (y : Z) (m : nat) : Z :=
  match m with
  | O => 0
  | S m' =>
      match m' with
      | O => 0
      | S _ => days_before_month y m' + days_in_month y (Z.of_nat m')
      end
  end.

(** Microseconds from 0001-01-01T00:00:00 to the given civil time. *)
Definition civil_usec (y mo d h mi s : Z) : Z :=
  let days := days_before_year y + days_before_month y (Z.to_nat mo) + (d - 1) in
  (((days * 24 + h) * 60 + mi) * 60 + s) * 1000000.

Definition timezone_of (off : Z) : option timezone :=
  match offset_ok off as b return (Is_true b → timezone) → option timezone with
  | true => λ mk, Some (mk I)
  | false => λ _, None
  end (Timezone off).

Definition char_is (i : nat) (c : ascii) (s : string) : bool :=
  match String.get i s with
  | Some a => Ascii.eqb a c
  | None => false
  end.

Definition between (lo x hi : Z) : bool := (lo <=? x) && (x <=? hi).

(** The [+HH:MM] or [-HH:MM] suffix at position 19, if there is one. *)
Definition iso_profile_zone (s : string) : option (option timezone) :=
  if Nat.eqb (String.length s) 19 then Some None
  else if Nat.eqb (String.length s) 25 && char_is 22 ":" s then
    sign ← (if char_is 19 "+" s then Some 1
            else if char_is 19 "-" s then Some (-1) else None);
    h ← field 20 2 s;
    mi ← field 23 2 s;
    if between 0 h 23 && between 0 mi 59 then
      tz ← timezone_of (sign * ((h * 60 + mi) * 60 * 1000000));
      Some (Some tz)
    else None
  else None.

Definition iso_profile (s : string) : option datetime :=
  if char_is 4 "-" s && char_is 7 "-" s && char_is 10 "T" s
     && char_is 13 ":" s && char_is 16 ":" s then
    y ← field 0 4 s;
    mo ← field 5 2 s;
    d ← field 8 2 s;
    h ← field 11 2 s;
    mi ← field 14 2 s;
    sec ← field 17 2 s;
    tz ← iso_profile_zone s;
    if between 1 y 9999 && between 1 mo 12 && between 1 d (days_in_month y mo)
       && between 0 h 23 && between 0 mi 59 && between 0 sec 59 then
      Some (Datetime (civil_usec y mo d h mi sec) tz)
    else None
  else None.

Definition reference_platform : Platform := {|
  fromisoformat := iso_profile;
  container_repr := λ _, "<container>";
  CREATE_REFUND_INVOICE := "/refund/create";
  LIST_REFUND_INVOICES := "/refund/list";
  GET_REFUND_DETAILS := "/refund"
|}.

(** 2026-11-03T12:00:00 UTC, read in a zone two hours ahead of UTC. *)
Definition sample_clock : clock :=
  Clock (civil_usec 2026 11 3 12 0 0) (civil_usec 2026 11 3 14 0 0).

(** A world whose collaborators answer the same whatever they are asked. *)
Definition canned_world (auth : outcome (pyval * pyval)) (keys api pick : outcome pyval)
  : World := {|
  authenticate_with_wallet := λ _ _ _, auth;
  list_developer_keys := λ _ _ _ _ _, keys;
  create_request := λ _ _, api;
  choice := λ _ _ _, pick;
  system_clock := sample_clock
|}.

Definition dict (l : list (string * pyval)) : pyval := VDict (list_to_map l).

Definition silent : outcome pyval := Raise (Exn OtherException "not called").

Definition logged_in : outcome (pyval * pyval) := Ret (VStr "token-1", VNone).

(** An expired key last updated 45 days before [sample_clock], one updated
    10 days before it, and one whose timestamp is not a timestamp. *)
Definition key_old : pyval :=
  dict [("keyId", VStr "key-1"); ("apiKey", VStr "pk-1");
        ("status", VStr "expired"); ("updatedAt", VStr "2026-09-19T12:00:00Z")].
Definition key_recent : pyval :=
  dict [("keyId", VStr "key-2"); ("apiKey", VStr "pk-2");
        ("status", VStr "expired"); ("updatedAt", VStr "2026-10-24T12:00:00Z")].
Definition key_garbled : pyval :=
  dict [("keyId", VStr "key-3"); ("apiKey", VStr "pk-3");
        ("status", VStr "expired"); ("updatedAt", VStr "last week")].

Definition sample_invoice : pyval :=
  dict [("refundId", VStr "rf-1"); ("amountDue", VInt 5); ("status", VStr "pending");
        ("createdAt", VStr "2026-11-03T12:00:00.123456Z")].

(** ** Notions the statements use *)


(** A clock whose readings, in any zone, and the same readings thirty
    days earlier are dates [datetime] can hold. *)
Definition clock_sane (c : clock) : Prop :=
  31 * usec_per_day ≤ utc_now c < max_usec - usec_per_day
  ∧ 30 * usec_per_day ≤ local_now c < max_usec.

(** A key record whose [updatedAt], when it has one, is a string. *)
Definition textual_updated_at (key : pyval) : Prop :=
  ∃ fields, key = VDict fields
    ∧ (fields !! "updatedAt" = None ∨ ∃ s, fields !! "updatedAt" = Some (VStr s)).


(** The request [list_refund_invoices] sends. *)
Definition list_request `{Platform} (token : pyval) (page limit : Z) : request :=
  Request LIST_REFUND_INVOICES None None
          (Some (VDict (<["page" := VInt page]> (<["limit" := VInt limit]> ∅))))
          token.

(** The request [get_refund_details] sends. *)
Definition details_request `{Platform} (token : pyval) (refund_id : string)
  : request :=
  Request (GET_REFUND_DETAILS +:+ "/" +:+ refund_id) None None None token.

(** Canned worlds for the runs worked out below. *)
Definition backend : string := "https://backend.example".

Definition world_no_keys : World :=
  canned_world logged_in (Ret (dict [("keys", VList [])])) silent silent.

Definition world_recent_key : World :=
  canned_world logged_in (Ret (dict [("keys", VList [key_recent])])) silent silent.

Definition world_three_keys : World :=
  canned_world logged_in
    (Ret (dict [("keys", VList [key_recent; key_old; key_garbled])]))
    (Ret (dict [("data", sample_invoice)])) (Ret (VInt 0)).

Definition connection_refused : exn := Exn RequestException "connection refused".

Definition world_offline : World :=
  canned_world logged_in (Ret (dict [("keys", VList [key_old])]))
    (Raise connection_refused) (Ret (VInt 0)).

Definition world_logged_out : World :=
  canned_world (Ret (VStr "", VNone)) silent silent silent.

Definition world_no_invoices : World :=
  canned_world logged_in silent
    (Ret (dict [("data", dict [("data", VList []); ("pagination", dict [])])]))
    silent.

Definition world_bare_response : World :=
  canned_world logged_in silent (Ret (dict [("message", VStr "ok")])) silent.

(** * Properties *)

Section Comprehensions.
Context {A : Type}.


Lemma filter_comprehension_total (p : A → outcome bool) l :
  (∀ x, x ∈ l → ∃ b, p x = Ret b) → ∃ kept, filter_comprehension p l = Ret kept.
Proof.
  induction l as [|a l IH]; intros Hall; cbn; [eauto|].
  destruct (Hall a) as [b ->]; [set_solver|]. cbn.
  destruct IH as [k ->]; [intros; apply Hall; set_solver|]. cbn. eauto.
Qed.
End Comprehensions.

Section Eligibility.
Context `{Platform}.
Import RefundManager.


Lemma is_older_unparsable c s :
  fromisoformat (str_replace_char "Z" "+00:00" s) = None →
  _is_older_than_one_month c (VStr s) = Ret false.
Proof.
  intros Hp. unfold _is_older_than_one_month, older_than_one_month_body.
  cbn. unfold datetime_fromisoformat. rewrite Hp. reflexivity.
Qed.


Lemma is_older_total c s :
  clock_sane c → ∃ b, _is_older_than_one_month c (VStr s) = Ret b.
Proof.
  intros [[Hu1 Hu2] [Hl1 Hl2]].
  destruct (fromisoformat (str_replace_char "Z" "+00:00" s)) as [d|] eqn:Hp.
  2: { exists false. by apply is_older_unparsable. }
  unfold _is_older_than_one_month, older_than_one_month_body.
  cbn. unfold datetime_fromisoformat. rewrite Hp. cbn.
  unfold datetime_now, datetime_minus_days, checked_datetime.
  unfold max_usec, usec_per_day in *.
  destruct d as [w [[off Hoff]|]]; cbn.
  - pose proof (Is_true_true_1 _ Hoff) as Hb. unfold offset_ok, usec_per_day in Hb.
    apply andb_true_iff in Hb as [Ho1%Z.ltb_lt Ho2%Z.ltb_lt].
    assert (in_range (utc_now c + off) = true) as ->.
    { unfold in_range, max_usec, usec_per_day. apply andb_true_iff. split; [apply Z.leb_le|apply Z.ltb_lt]; lia. }
    cbn.
    assert (in_range (utc_now c + off - 30 * 86400000000) = true) as ->.
    { unfold in_range, max_usec, usec_per_day. apply andb_true_iff. split; [apply Z.leb_le|apply Z.ltb_lt]; lia. }
    cbn. eauto.
  - assert (in_range (local_now c) = true) as ->.
    { unfold in_range, max_usec, usec_per_day. apply andb_true_iff. split; [apply Z.leb_le|apply Z.ltb_lt]; lia. }
    cbn.
    assert (in_range (local_now c - 30 * 86400000000) = true) as ->.
    { unfold in_range, max_usec, usec_per_day. apply andb_true_iff. split; [apply Z.leb_le|apply Z.ltb_lt]; lia. }
    cbn. eauto.
Qed.
End Eligibility.

Section Traces.
Context {A : Type}.

Lemma try_except_result (body : M A) h :
  result (try_except body h)
  = match result body with
    | Ret a => Ret a
    | Raise e => match h e with Some m => result m | None => Raise e end
    end.
Proof.
  unfold try_except. destruct (result body) as [a|e] eqn:Hb; [done|].
  by destruct (h e).
Qed.

Lemma try_except_trace_silent (body : M A) h :
  (∀ e m, h e = Some m → trace m = []) →
  trace (try_except body h) = trace body.
Proof.
  intros Hh. unfold try_except. destruct (result body) as [a|e]; [done|].
  destruct (h e) as [m|] eqn:He; [|done]. cbn.
  rewrite (Hh _ _ He). apply app_nil_r.
Qed.
End Traces.

#[local] Arguments py_getitem : simpl never.
#[local] Arguments py_get : simpl never.
#[local] Arguments py_len : simpl never.
#[local] Arguments py_iter : simpl never.
#[local] Arguments py_upper : simpl never.
#[local] Arguments py_slice_to : simpl never.
#[local] Arguments list_getitem : simpl never.
#[local] Arguments RefundManager.eligible_keys_of : simpl never.
#[local] Arguments RefundManager.options_of : simpl never.

(** Case analysis on the next step of a computation that occurs in [H]. *)
Ltac step H :=
  match type of H with
  | context [match ?o with Ret _ => _ | Raise _ => _ end] =>
      destruct o eqn:?; cbn in H
  | context [if ?b then _ else _] => destruct b eqn:?; cbn in H
  end.

(** The same on the goal. *)
Ltac step_goal :=
  match goal with
  | |- context [match ?o with Ret _ => _ | Raise _ => _ end] =>
      destruct o eqn:?; cbn
  | |- context [if ?b then _ else _] => destruct b eqn:?; cbn
  end.

(** [H] places an event in a listed trace: keep the positions it fits. *)
Ltac find_event H :=
  rewrite ?elem_of_cons, ?elem_of_nil in H;
  repeat match type of H with
         | _ ∨ _ => destruct H as [H|H]; [try discriminate|]
         | False => destruct H
         end;
  try discriminate.

Section CreateInvoice.
Context `{Platform} `{World}.
Import RefundManager.

Lemma create_handler_silent (e : exn) (m : M pyval) :
  match exn_cls e with
  | RequestException => Some (raise APIError ("Request failed: " +:+ exn_msg e))
  | _ => Some (raise RefundError
                 ("Error creating refund invoice: " +:+ exn_msg e +:+
                  ". Check if you have already created invoice for this key."))
  end = Some m → trace m = [].
Proof. destruct (exn_cls e); intros [= <-]; reflexivity. Qed.


(** A run that sends a request to the API client has gone through the
    prompt, and the request is built from the key picked there. *)
Lemma create_request_inv url token url' r :
  ECreateRequest url' r ∈ trace (create_refund_invoice url token) →
  ∃ keys_result expired_keys items eligible options pick selected_key key_id,
    list_developer_keys url token 1 100 "expired" = Ret keys_result
    ∧ py_getitem keys_result "keys" = Ret expired_keys
    ∧ py_iter expired_keys = Ret items
    ∧ eligible_keys_of system_clock items = Ret eligible
    ∧ options_of eligible = Ret options
    ∧ choice "Please choose a developer key:" options "salad" = Ret pick
    ∧ list_getitem eligible pick = Ret selected_key
    ∧ py_getitem selected_key "keyId" = Ret key_id
    ∧ url' = url
    ∧ r = Request CREATE_REFUND_INVOICE (Some "POST")
                  (Some (VDict {[ "keyId" := key_id ]})) None token.
Proof.
  unfold create_refund_invoice.
  rewrite try_except_trace_silent by apply create_handler_silent.
  unfold call, lift, create_request_event, call. cbn. intros Hin.
  repeat step Hin; find_event Hin.
  all: injection Hin as -> ->.
  all: do 8 eexists; repeat split; first [reflexivity | eassumption].
Qed.

(** Every run opens with the one listing request, and sends no other. *)
Lemma create_lists_once url token :
  ∃ rest,
    trace (create_refund_invoice url token)
    = EListDeveloperKeys url token 1 100 "expired" :: rest
    ∧ ∀ url' token' page limit status,
        EListDeveloperKeys url' token' page limit status ∉ rest.
Proof.
  unfold create_refund_invoice.
  rewrite try_except_trace_silent by apply create_handler_silent.
  unfold call, lift, create_request_event, call. cbn.
  repeat step_goal.
  all: eexists; split; [reflexivity|].
  all: intros ? ? ? ? ? Hin; find_event Hin.
Qed.

(** The run in which every step succeeds. *)
Lemma create_run url token keys_result expired_keys items eligible options
    pick selected_key key_id response data :
  list_developer_keys url token 1 100 "expired" = Ret keys_result →
  py_getitem keys_result "keys" = Ret expired_keys →
  py_len expired_keys = Ret (length items) →
  py_iter expired_keys = Ret items →
  eligible_keys_of system_clock items = Ret eligible →
  eligible ≠ [] →
  options_of eligible = Ret options →
  choice "Please choose a developer key:" options "salad" = Ret pick →
  list_getitem eligible pick = Ret selected_key →
  py_getitem selected_key "keyId" = Ret key_id →
  create_request url (Request CREATE_REFUND_INVOICE (Some "POST")
                        (Some (VDict {[ "keyId" := key_id ]})) None token)
  = Ret response →
  py_getitem response "data" = Ret data →
  create_refund_invoice url token
  = Run [ EListDeveloperKeys url token 1 100 "expired";
          EHeader "Expired Developer Keys - Available for Refund";
          EChoice "Please choose a developer key:" options "salad";
          ECreateRequest url
            (Request CREATE_REFUND_INVOICE (Some "POST")
                     (Some (VDict {[ "keyId" := key_id ]})) None token);
          ESuccess "✅ Refund Invoice created successfully!" ]
        (Ret data).
Proof.
  intros Hk Hg Hl Hi He Hne Ho Hc Hs Hid Hr Hd.
  assert (items ≠ []) as Hitems.
  { intros ->. unfold eligible_keys_of in He. cbn in He. congruence. }
  unfold create_refund_invoice, try_except, call, lift, create_request_event, call.
  cbn. rewrite Hk. cbn. rewrite Hg. cbn. rewrite Hl. cbn.
  destruct items as [|k0 items]; [done|]. cbn. rewrite Hi. cbn. rewrite He. cbn.
  destruct eligible as [|e0 eligible]; [done|]. cbn. rewrite Ho. cbn.
  rewrite Hc. cbn. rewrite Hs. cbn. rewrite Hid. cbn. rewrite Hr. cbn.
  rewrite Hd. cbn. reflexivity.
Qed.
End CreateInvoice.

Section Selection.
Context `{Platform}.
Import RefundManager.

End Selection.

Section Options.
Context `{Platform}.
Import RefundManager.



Lemma list_getitem_nat (l : list pyval) (i : nat) x :
  l !! i = Some x → list_getitem l (VInt (Z.of_nat i)) = Ret x.
Proof.
  intros Hl. pose proof (lookup_lt_Some _ _ _ Hl) as Hlt.
  unfold list_getitem, list_index.
  destruct (Z.of_nat i <? 0) eqn:Hneg; [apply Z.ltb_lt in Hneg; lia|].
  assert ((0 <=? Z.of_nat i) && (Z.of_nat i <? Z.of_nat (length l)) = true) as ->.
  { apply andb_true_iff. split; [apply Z.leb_le|apply Z.ltb_lt]; lia. }
  by rewrite Nat2Z.id, Hl.
Qed.

Lemma list_getitem_nat_inv (l : list pyval) (i : nat) x :
  list_getitem l (VInt (Z.of_nat i)) = Ret x → l !! i = Some x.
Proof.
  unfold list_getitem, list_index.
  destruct (Z.of_nat i <? 0) eqn:Hneg; [apply Z.ltb_lt in Hneg; lia|].
  destruct ((0 <=? Z.of_nat i) && (Z.of_nat i <? Z.of_nat (length l)));
    [|discriminate].
  rewrite Nat2Z.id. destruct (l !! i); [|discriminate]. by intros [= <-].
Qed.
End Options.

Section CreateInvoiceClaims.
Context `{Platform} `{World}.
Import RefundManager.


(** C2. On a string the age check returns and never raises (for a
    clock whose readings are dates); it returns false on a string that
    does not parse, so on the empty string and on an absent [updatedAt]
    when [fromisoformat] rejects the empty string; and the filter of
    [create_refund_invoice] runs to its end on key records whose
    [updatedAt] is a string or absent. *)
Theorem age_check_total_on_strings (c : clock) :
  clock_sane c →
  (∀ s, ∃ b, _is_older_than_one_month c (VStr s) = Ret b)
  ∧ (∀ s, fromisoformat (str_replace_char "Z" "+00:00" s) = None →
          _is_older_than_one_month c (VStr s) = Ret false)
  ∧ (fromisoformat "" = None →
       _is_older_than_one_month c (VStr "") = Ret false
       ∧ ∀ fields : gmap string pyval, fields !! "updatedAt" = None →
           (py_get (VDict fields) "updatedAt" (VStr "")
              ≫= _is_older_than_one_month c) = Ret false)
  ∧ (∀ expired_keys, Forall textual_updated_at expired_keys →
       ∃ eligible, eligible_keys_of c expired_keys = Ret eligible).
Proof.
  intros Hc. split; [intros s; by apply is_older_total|].
  split; [intros s; apply is_older_unparsable|]. split.
  - intros He. split; [by apply is_older_unparsable|].
    intros fields Hf. unfold py_get. rewrite Hf. cbn.
    by apply is_older_unparsable.
  - intros keys Hall. apply filter_comprehension_total.
    intros key Hin. rewrite Forall_forall in Hall.
    destruct (Hall key Hin) as (fields & -> & [Hf|[s Hf]]);
      unfold py_get; rewrite Hf; cbn; by apply is_older_total.
Qed.

(** C5. When the listing holds no key, [create_refund_invoice] returns
    [None] without raising, and the listing request is the only call it
    makes: no request goes to the API client. *)
Theorem no_expired_keys_no_request url token keys_result expired_keys :
  list_developer_keys url token 1 100 "expired" = Ret keys_result →
  py_getitem keys_result "keys" = Ret expired_keys →
  py_len expired_keys = Ret 0%nat →
  create_refund_invoice url token
  = Run [EListDeveloperKeys url token 1 100 "expired"] (Ret VNone)
  ∧ ∀ url' r, ECreateRequest url' r ∉ trace (create_refund_invoice url token).
Proof.
  intros Hk Hg Hl.
  assert (create_refund_invoice url token
          = Run [EListDeveloperKeys url token 1 100 "expired"] (Ret VNone)) as ->.
  { unfold create_refund_invoice, try_except, call, lift.
    cbn. rewrite Hk. cbn. rewrite Hg. cbn. rewrite Hl. reflexivity. }
  split; [done|]. intros url' r Hin. cbn in Hin. find_event Hin.
Qed.

(** C9. Every run of [create_refund_invoice] opens with the listing
    request for page 1, limit 100, status "expired", and sends no other
    listing request.  A request that reaches the API client is the POST
    to [CREATE_REFUND_INVOICE] whose body is exactly [{keyId: id}], [id]
    being the [keyId] of the eligible key at the index the prompt
    returned.  And when the user picks index [i] and every step
    succeeds, the run is the listing, the prompt, that one request and
    the returned [data]. *)
Theorem create_invoice_requests url token :
  (∃ rest,
     trace (create_refund_invoice url token)
     = EListDeveloperKeys url token 1 100 "expired" :: rest
     ∧ ∀ url' token' page limit status,
         EListDeveloperKeys url' token' page limit status ∉ rest)
  ∧ (∀ url' r,
       ECreateRequest url' r ∈ trace (create_refund_invoice url token) →
       ∃ keys_result expired_keys items eligible options pick selected_key key_id,
         list_developer_keys url token 1 100 "expired" = Ret keys_result
         ∧ py_getitem keys_result "keys" = Ret expired_keys
         ∧ py_iter expired_keys = Ret items
         ∧ eligible_keys_of system_clock items = Ret eligible
         ∧ options_of eligible = Ret options
         ∧ choice "Please choose a developer key:" options "salad" = Ret pick
         ∧ list_getitem eligible pick = Ret selected_key
         ∧ (∀ i : nat, pick = VInt (Z.of_nat i) → eligible !! i = Some selected_key)
         ∧ py_getitem selected_key "keyId" = Ret key_id
         ∧ url' = url
         ∧ r = Request CREATE_REFUND_INVOICE (Some "POST")
                       (Some (VDict {[ "keyId" := key_id ]})) None token)
  ∧ (∀ keys_result items eligible options (i : nat) selected_key key_id
       response data,
       list_developer_keys url token 1 100 "expired" = Ret keys_result →
       py_getitem keys_result "keys" = Ret (VList items) →
       eligible_keys_of system_clock items = Ret eligible →
       options_of eligible = Ret options →
       choice "Please choose a developer key:" options "salad"
       = Ret (VInt (Z.of_nat i)) →
       eligible !! i = Some selected_key →
       py_getitem selected_key "keyId" = Ret key_id →
       create_request url (Request CREATE_REFUND_INVOICE (Some "POST")
                             (Some (VDict {[ "keyId" := key_id ]})) None token)
       = Ret response →
       py_getitem response "data" = Ret data →
       create_refund_invoice url token
       = Run [ EListDeveloperKeys url token 1 100 "expired";
               EHeader "Expired Developer Keys - Available for Refund";
               EChoice "Please choose a developer key:" options "salad";
               ECreateRequest url
                 (Request CREATE_REFUND_INVOICE (Some "POST")
                          (Some (VDict {[ "keyId" := key_id ]})) None token);
               ESuccess "✅ Refund Invoice created successfully!" ]
             (Ret data)).
Proof.
  split; [apply create_lists_once|]. split.
  - intros url' r Hin.
    destruct (create_request_inv _ _ _ _ Hin)
      as (kr & ek & items & el & os & pick & key & id
          & Hk & Hg & Hi & He & Ho & Hc & Hs & Hid & -> & ->).
    exists kr, ek, items, el, os, pick, key, id.
    repeat (split; [done|]). split; [|done].
    intros i ->. by apply list_getitem_nat_inv.
  - intros kr items el os i key id response data Hk Hg He Ho Hc Hs Hid Hr Hd.
    apply (create_run url token kr (VList items) items el os
             (VInt (Z.of_nat i)) key id response data); try done.
    + intros ->. discriminate.
    + by apply list_getitem_nat.
Qed.
End CreateInvoiceClaims.

Section Strings.


End Strings.

Section MapComprehension.
Context {A B : Type}.


End MapComprehension.

#[local] Arguments str_take : simpl never.
#[local] Arguments str_upper : simpl never.

Section Display.
Context `{Platform}.
Import RefundManager.


End Display.

Section ListAndGet.
Context `{Platform} `{World}.
Import RefundManager.

Lemma display_empty pagination :
  display_refund_list (VList []) pagination
  = Run [EWarning "No refund invoices found."] (Ret tt).
Proof. reflexivity. Qed.

Lemma list_refund_invoices_run url token page limit response
    (data : gmap string pyval) :
  create_request url (list_request token page limit) = Ret response →
  py_getitem response "data" = Ret (VDict data) →
  list_refund_invoices url token (VInt page) (VInt limit)
  = Run [ECreateRequest url (list_request token page limit)]
        (Ret (VDict (<["refunds" := default (VList []) (data !! "data")]>
                       (<["pagination" := default (VDict ∅) (data !! "pagination")]>
                          ∅)))).
Proof.
  intros Hr Hd. unfold list_refund_invoices, try_except, create_request_event,
    call, lift. unfold list_request in Hr.
  cbn. rewrite Hr. cbn. rewrite Hd. cbn. unfold py_get. cbn. reflexivity.
Qed.

(** A transport failure while listing is an [APIError]. *)
Lemma list_transport_failure url token page limit e :
  create_request url (list_request token page limit) = Raise e →
  exn_cls e = RequestException →
  list_refund_invoices url token (VInt page) (VInt limit)
  = Run [ECreateRequest url (list_request token page limit)]
        (Raise (Exn APIError ("API request failed: " +:+ exn_msg e))).
Proof.
  intros Hr He. unfold list_refund_invoices, try_except, create_request_event,
    call, lift. unfold list_request in Hr.
  cbn. rewrite Hr. cbn. rewrite He. reflexivity.
Qed.

(** Whatever makes the details request fail, [get_refund_details]
    raises a [RefundError]. *)
Lemma get_refund_details_failure url token refund_id e :
  create_request url (details_request token refund_id) = Raise e →
  get_refund_details url token refund_id
  = Run [ECreateRequest url (details_request token refund_id)]
        (Raise (Exn RefundError ("Error fetching refund details: " +:+ exn_msg e))).
Proof.
  intros Hr. unfold get_refund_details, try_except, create_request_event,
    call, lift. unfold details_request in Hr.
  cbn. rewrite Hr. reflexivity.
Qed.

(** [get_refund_details] never raises anything but a [RefundError]. *)
Lemma get_refund_details_raises_refund_error url token refund_id e :
  result (get_refund_details url token refund_id) = Raise e →
  exn_cls e = RefundError.
Proof.
  unfold get_refund_details. rewrite try_except_result.
  destruct (result _); [discriminate|]. cbn. by intros [= <-].
Qed.

(** C7. An empty list of invoices is rendered as the one warning
    "No refund invoices found." and no table; a listing whose [data]
    holds an empty (or no) list is returned by [list_refund_invoices] as
    a value, and the [list] command on it prints the header, makes the
    two calls and prints that warning: no table, no error line. *)
Theorem empty_invoice_list_is_a_message wallet url page limit token extra
    response (data : gmap string pyval) :
  authenticate_with_wallet url wallet false = Ret (token, extra) →
  truthy token = true →
  create_request url (list_request token page limit) = Ret response →
  py_getitem response "data" = Ret (VDict data) →
  default (VList []) (data !! "data") = VList [] →
  (∀ pagination,
     display_refund_list (VList []) pagination
     = Run [EWarning "No refund invoices found."] (Ret tt))
  ∧ list_refund_invoices url token (VInt page) (VInt limit)
    = Run [ECreateRequest url (list_request token page limit)]
          (Ret (VDict (<["refunds" := VList []]>
                         (<["pagination" := default (VDict ∅) (data !! "pagination")]>
                            ∅))))
  ∧ refund.list wallet url page limit
    = Run [ EHeader ("📜 Listing refunds for wallet '" +:+ wallet +:+ "'");
            EAuthenticate url wallet false;
            ECreateRequest url (list_request token page limit);
            EWarning "No refund invoices found." ]
          (Ret tt).
Proof.
  intros Ha Ht Hr Hd He.
  pose proof (list_refund_invoices_run _ _ _ _ _ _ Hr Hd) as Hl.
  rewrite He in Hl. split; [apply display_empty|]. split; [done|].
  unfold refund.list, refund.authenticate, try_except, call, lift.
  cbn. rewrite Ha. cbn. rewrite Ht. cbn. rewrite Hl. cbn.
  unfold py_getitem. cbn. reflexivity.
Qed.

(** C10. When the response to the details request is a dict without a
    "data" entry, [get_refund_details] returns the empty dict and does
    not raise, and the [get] command prints the four lines from the
    fallbacks: the status "unknown", uppercased as every status is, the
    amount 0, and "N/A" for both timestamps. *)
Theorem details_without_data_use_fallbacks refund_id wallet url token extra
    (response : gmap string pyval) :
  authenticate_with_wallet url wallet false = Ret (token, extra) →
  truthy token = true →
  create_request url (details_request token refund_id) = Ret (VDict response) →
  response !! "data" = None →
  get_refund_details url token refund_id
  = Run [ECreateRequest url (details_request token refund_id)] (Ret (VDict ∅))
  ∧ refund.get refund_id wallet url
    = Run [ EHeader ("🔍 Fetching refund details: " +:+ refund_id);
            EAuthenticate url wallet false;
            ECreateRequest url (details_request token refund_id);
            EPrintTable ("Refund " +:+ refund_id)
              [ "Status:              UNKNOWN";
                "Amount:              0 TAO";
                "Created:             N/A";
                "Updated:             N/A" ] ]
          (Ret tt).
Proof.
  intros Ha Ht Hr Hd.
  assert (get_refund_details url token refund_id
          = Run [ECreateRequest url (details_request token refund_id)]
                (Ret (VDict ∅))) as Hg.
  { unfold get_refund_details, try_except, create_request_event, call, lift.
    unfold details_request in Hr. cbn. rewrite Hr. cbn.
    unfold py_get. rewrite Hd. reflexivity. }
  split; [done|].
  unfold refund.get, refund.authenticate, try_except, call, lift.
  cbn. rewrite Ha. cbn. rewrite Ht. cbn. rewrite Hg. reflexivity.
Qed.
End ListAndGet.

Section Commands.
Context `{Platform} `{World}.
Import RefundManager.

(** C8. When authentication yields an empty token, each of [start],
    [list] and [get] prints "Authentication required." and returns: after
    the authentication call it makes no call to the key manager, the API
    client or the prompt. *)
Theorem empty_token_stops_the_command wallet url refund_id page limit
    token extra :
  authenticate_with_wallet url wallet false = Ret (token, extra) →
  truthy token = false →
  refund.start wallet url
  = Run [ EHeader "💸 Creating refund invoice for developer key";
          EAuthenticate url wallet false;
          EError "Authentication required." ] (Ret tt)
  ∧ refund.list wallet url page limit
    = Run [ EHeader ("📜 Listing refunds for wallet '" +:+ wallet +:+ "'");
            EAuthenticate url wallet false;
            EError "Authentication required." ] (Ret tt)
  ∧ refund.get refund_id wallet url
    = Run [ EHeader ("🔍 Fetching refund details: " +:+ refund_id);
            EAuthenticate url wallet false;
            EError "Authentication required." ] (Ret tt).
Proof.
  intros Ha Ht.
  unfold refund.start, refund.list, refund.get, refund.authenticate,
    try_except, call.
  cbn. rewrite Ha. cbn. rewrite Ht. cbn. done.
Qed.

(** Whenever [create_refund_invoice] returns [None], [start] ends with
    the error line of its catch-all clause. *)
Lemma start_after_empty_create wallet url token extra tr :
  authenticate_with_wallet url wallet false = Ret (token, extra) →
  truthy token = true →
  create_refund_invoice url token = Run tr (Ret VNone) →
  refund.start wallet url
  = Run ([ EHeader "💸 Creating refund invoice for developer key";
           EAuthenticate url wallet false ]
         ++ tr
         ++ [EError "Unexpected error: 'NoneType' object has no attribute 'get'"])
        (Ret tt).
Proof.
  intros Ha Ht Hc. unfold refund.start, refund.authenticate, try_except, call, lift.
  cbn. rewrite Ha. cbn. rewrite Ht. cbn. rewrite Hc. cbn.
  by rewrite app_nil_r.
Qed.
End Commands.

(** ** Runs on the canned worlds *)

Section Runs.
Import RefundManager.

(** C3. With a token and a listing without keys, [start] prints no
    warning for the empty outcome: [create_refund_invoice] returns [None],
    the command calls [.get] on it before it tests it, and the catch-all
    clause prints an error line.  With one expired key that is too recent,
    the manager's own warning is followed by the same error line. *)
Theorem start_reports_nothing_to_refund_as_error :
  @refund.start reference_platform world_no_keys "alice" backend
  = Run [ EHeader "💸 Creating refund invoice for developer key";
          EAuthenticate backend "alice" false;
          EListDeveloperKeys backend (VStr "token-1") 1 100 "expired";
          EError "Unexpected error: 'NoneType' object has no attribute 'get'" ]
        (Ret tt)
  ∧ @refund.start reference_platform world_recent_key "alice" backend
    = Run [ EHeader "💸 Creating refund invoice for developer key";
            EAuthenticate backend "alice" false;
            EListDeveloperKeys backend (VStr "token-1") 1 100 "expired";
            EWarning "No expired keys older than 1 month found.";
            EError "Unexpected error: 'NoneType' object has no attribute 'get'" ]
          (Ret tt).
Proof. split; vm_compute; reflexivity. Qed.

(** C4. When the API client fails with a [requests.RequestException],
    [create_refund_invoice] and [list_refund_invoices] raise an [APIError],
    and [get_refund_details] raises a [RefundError]. *)
Theorem get_reports_transport_failure_as_refund_error :
  result (@create_refund_invoice reference_platform world_offline backend
            (VStr "token-1"))
  = Raise (Exn APIError "Request failed: connection refused")
  ∧ result (@list_refund_invoices reference_platform world_offline backend
              (VStr "token-1") (VInt 1) (VInt 15))
    = Raise (Exn APIError "API request failed: connection refused")
  ∧ result (@get_refund_details reference_platform world_offline backend
              (VStr "token-1") "rf-1")
    = Raise (Exn RefundError "Error fetching refund details: connection refused").
Proof. repeat split; vm_compute; reflexivity. Qed.

(** A [null] [updatedAt] is not a string: [.replace] raises an
    [AttributeError], which the age check does not catch. *)
Example age_check_on_null :
  @_is_older_than_one_month reference_platform sample_clock VNone
  = Raise (Exn AttributeError "'NoneType' object has no attribute 'replace'").
Proof. reflexivity. Qed.

Example age_check_at_the_threshold :
  @_is_older_than_one_month reference_platform sample_clock
     (VStr "2026-10-04T12:00:00Z") = Ret false
  ∧ @_is_older_than_one_month reference_platform sample_clock
       (VStr "2026-10-04T11:59:59Z") = Ret true
  ∧ @_is_older_than_one_month reference_platform sample_clock
       (VStr "2026-10-04T13:59:59+02:00") = Ret true
  ∧ @_is_older_than_one_month reference_platform sample_clock
       (VStr "2026-10-04T13:59:59") = Ret true
  ∧ @_is_older_than_one_month reference_platform sample_clock
       (VStr "2026-10-04T14:00:00") = Ret false.
Proof. repeat split; vm_compute; reflexivity. Qed.

Lemma sample_clock_sane : clock_sane sample_clock.
Proof. unfold clock_sane. vm_compute. intuition discriminate. Qed.


Lemma age_check_total_on_strings_witness :
  @_is_older_than_one_month reference_platform sample_clock (VStr "last week")
  = Ret false
  ∧ @_is_older_than_one_month reference_platform sample_clock (VStr "") = Ret false
  ∧ ∃ eligible,
      @eligible_keys_of reference_platform sample_clock
         [key_garbled; dict [("keyId", VStr "key-4")]] = Ret eligible.
Proof.
  destruct (@age_check_total_on_strings reference_platform sample_clock
              sample_clock_sane) as (_ & Hbad & Hempty & Hfilter).
  split; [apply Hbad; vm_compute; reflexivity|].
  split; [apply Hempty; vm_compute; reflexivity|].
  apply Hfilter. repeat constructor.
  - eexists. split; [reflexivity|]. right. exists "last week".
    vm_compute. reflexivity.
  - eexists. split; [reflexivity|]. left. vm_compute. reflexivity.
Defined.

Lemma no_expired_keys_no_request_witness :
  @create_refund_invoice reference_platform world_no_keys backend (VStr "token-1")
  = Run [EListDeveloperKeys backend (VStr "token-1") 1 100 "expired"] (Ret VNone).
Proof.
  apply (@no_expired_keys_no_request reference_platform world_no_keys backend
           (VStr "token-1") (dict [("keys", VList [])]) (VList []));
    vm_compute; reflexivity.
Defined.


Lemma empty_invoice_list_is_a_message_witness :
  @refund.list reference_platform world_no_invoices "alice" backend 1 15
  = Run [ EHeader "📜 Listing refunds for wallet 'alice'";
          EAuthenticate backend "alice" false;
          ECreateRequest backend
            (@list_request reference_platform (VStr "token-1") 1 15);
          EWarning "No refund invoices found." ]
        (Ret tt).
Proof.
  apply (@empty_invoice_list_is_a_message reference_platform world_no_invoices
           "alice" backend 1 15 (VStr "token-1") VNone
           (dict [("data", dict [("data", VList []); ("pagination", dict [])])])
           (list_to_map [("data", VList []); ("pagination", dict [])]));
    vm_compute; reflexivity.
Defined.

Lemma empty_token_stops_the_command_witness :
  @refund.start reference_platform world_logged_out "alice" backend
  = Run [ EHeader "💸 Creating refund invoice for developer key";
          EAuthenticate backend "alice" false;
          EError "Authentication required." ] (Ret tt).
Proof.
  apply (@empty_token_stops_the_command reference_platform world_logged_out
           "alice" backend "rf-1" 1 15 (VStr "") VNone);
    vm_compute; reflexivity.
Defined.

Lemma create_invoice_requests_witness :
  @create_refund_invoice reference_platform world_three_keys backend
     (VStr "token-1")
  = Run [ EListDeveloperKeys backend (VStr "token-1") 1 100 "expired";
          EHeader "Expired Developer Keys - Available for Refund";
          EChoice "Please choose a developer key:" [(VInt 0, VStr "pk-1")] "salad";
          ECreateRequest backend
            (Request "/refund/create" (Some "POST")
                     (Some (VDict {[ "keyId" := VStr "key-1" ]})) None
                     (VStr "token-1"));
          ESuccess "✅ Refund Invoice created successfully!" ]
        (Ret sample_invoice).
Proof.
  destruct (@create_invoice_requests reference_platform world_three_keys backend
              (VStr "token-1")) as (_ & _ & Hrun).
  apply (Hrun (dict [("keys", VList [key_recent; key_old; key_garbled])])
              [key_recent; key_old; key_garbled] [key_old]
              [(VInt 0, VStr "pk-1")] 0%nat key_old (VStr "key-1")
              (dict [("data", sample_invoice)]) sample_invoice);
    vm_compute; reflexivity.
Defined.

Lemma details_without_data_use_fallbacks_witness :
  @refund.get reference_platform world_bare_response "rf-1" "alice" backend
  = Run [ EHeader "🔍 Fetching refund details: rf-1";
          EAuthenticate backend "alice" false;
          ECreateRequest backend
            (@details_request reference_platform (VStr "token-1") "rf-1");
          EPrintTable "Refund rf-1"
            [ "Status:              UNKNOWN";
              "Amount:              0 TAO";
              "Created:             N/A";
              "Updated:             N/A" ] ]
        (Ret tt).
Proof.
  apply (@details_without_data_use_fallbacks reference_platform
           world_bare_response "rf-1" "alice" backend (VStr "token-1") VNone
           (list_to_map [("message", VStr "ok")]));
    vm_compute; reflexivity.
Defined.

End Runs.
